(** * The example page of the documentation site

    A verification development for [docs/src/pages/ex2/0x0.tsx]: the page
    component [Exception], the module that declares it, the element tree its
    JSX expression denotes, and the way a rendering host evaluates that tree
    against the two imported components (the layout and the translation
    provider). *)

From Stdlib Require Import Bool List String Ascii.
Import ListNotations.

Local Open Scope string_scope.
Local Open Scope list_scope.

Set Implicit Arguments.
Set Warnings "-register-all".

(** ** Text of a JSX child

    The text between two JSX tags is not the text of the element: the JSX
    transform splits it in lines, trims them and joins what is left.  The
    functions below follow the transform line by line (lines are split at a
    line feed or a carriage return; tabs count as spaces; every line but the
    first loses its leading blanks, every line but the last its trailing
    blanks; empty lines go; the lines kept are joined by one space). *)
Module JSXText.

Definition LF : ascii := "010"%char.
Definition CR : ascii := "013"%char.
Definition TAB : ascii := "009"%char.
Definition SPACE : ascii := " "%char.

Definition is_line_break (c : ascii) : bool :=
  Ascii.eqb c LF || Ascii.eqb c CR.

Definition is_blank (c : ascii) : bool :=
  Ascii.eqb c SPACE || Ascii.eqb c TAB.

Definition starts_with_LF (value : list ascii) : bool :=
  match value with
  | c :: _ => Ascii.eqb c LF
  | [] => false
  end.

(** [value.split(/\r\n|\n|\r/)]: a CR LF pair is one break, so at a CR
    that an LF follows the break is left to that LF. *)
Fixpoint split (value : list ascii) : list (list ascii) :=
  match value with
  | [] => [[]]
  | c :: rest =>
      if is_line_break c then
        if Ascii.eqb c CR && starts_with_LF rest
        then split rest
        else [] :: split rest
      else
        match split rest with
        | l :: ls => (c :: l) :: ls
        | [] => [[c]]
        end
  end.

(** [/[^ \t]/.exec(line)] *)
Definition has_text (line : list ascii) : bool :=
  existsb (fun c => negb (is_blank c)) line.

(** First loop: the index of the last line that holds something else than
    blanks (0 when there is none). *)
Fixpoint last_non_empty_line (lines : list (list ascii)) (i last : nat) : nat :=
  match lines with
  | [] => last
  | l :: ls => last_non_empty_line ls (S i) (if has_text l then i else last)
  end.

(** [line.replace(/\t/g, " ")] *)
Definition untab (line : list ascii) : list ascii :=
  map (fun c => if Ascii.eqb c TAB then SPACE else c) line.

(** [replace(/^[ ]+/, "")] *)
Fixpoint trim_start (line : list ascii) : list ascii :=
  match line with
  | c :: rest => if Ascii.eqb c SPACE then trim_start rest else line
  | [] => []
  end.

(** [replace(/[ ]+$/, "")] *)
Definition trim_end (line : list ascii) : list ascii :=
  rev (trim_start (rev line)).

(** Second loop, from line [i] on, with the text gathered so far. *)
Fixpoint gather (lines : list (list ascii)) (i count last : nat)
         (str : list ascii) : list ascii :=
  match lines with
  | [] => str
  | line :: ls =>
      let isFirstLine := Nat.eqb i 0 in
      let isLastLine := Nat.eqb i (count - 1) in
      let isLastNonEmptyLine := Nat.eqb i last in
      let t0 := untab line in
      let t1 := if isFirstLine then t0 else trim_start t0 in
      let t2 := if isLastLine then t1 else trim_end t1 in
      match t2 with
      | [] => gather ls (S i) count last str
      | _ :: _ =>
          let t3 := if isLastNonEmptyLine then t2 else t2 ++ [SPACE] in
          gather ls (S i) count last (str ++ t3)
      end
  end.

(** The string child the transform emits for a JSX text, or [None] when
    nothing is left of it and no child is emitted. *)
Definition clean (value : string) : option string :=
  let lines := split (list_ascii_of_string value) in
  let last := last_non_empty_line lines 0 0 in
  match gather lines 0 (List.length lines) last [] with
  | [] => None
  | str => Some (string_of_list_ascii str)
  end.

(** A line break followed by [n] spaces: the indentation of the source. *)
Fixpoint spaces (n : nat) : string :=
  match n with
  | O => EmptyString
  | S k => String SPACE (spaces k)
  end.

Definition newline_indent (n : nat) : string := String LF (spaces n).

End JSXText.

(** ** JSX expressions and element trees *)

(** A JSX attribute with a string literal value: [name="value"]. *)
Definition attribute : Type := string * string.

(** The JSX expression as it is written: text children are kept raw. *)
Inductive jsx_child : Type :=
| JSXText (value : string)
| JSXChildElement (e : jsx_element)
with jsx_element : Type :=
| JSXElement (name : string) (attributes : list attribute)
             (children : list jsx_child).

(** The element tree a JSX expression evaluates to: [type] is the name of
    the component, [props] its attributes but the children, [children] the
    children the transform emits. *)
Inductive node : Type :=
| Text (s : string)
| Element (type : string) (props : list attribute) (children : list node).

(** A text child is handed to the cleaner as it is written and an attribute
    keeps its value as written: this is what the transform does for texts
    and values without a character reference ([&...;]), as those of the page
    are. *)
Fixpoint compile_element (e : jsx_element) : node :=
  match e with
  | JSXElement name attributes children =>
      Element name attributes (flat_map compile_child children)
  end
with compile_child (c : jsx_child) : list node :=
  match c with
  | JSXText value =>
      match JSXText.clean value with
      | Some s => [Text s]
      | None => []
      end
  | JSXChildElement e => [compile_element e]
  end.


(** ** The module [0x0.tsx] *)

Inductive import_kind : Type :=
| ImportDefault
| ImportNamed
| ImportNamespace
| ImportSideEffect.

Record import_declaration : Type := {
  import_as : import_kind;
  local : string;
  source : string
}.

Inductive export_kind : Type :=
| ExportDefault
| ExportNamed.

(** A function whose body is [return (<jsx>)]. *)
Record function_declaration : Type := {
  name : string;
  parameters : list string;
  body : jsx_element
}.

Record export_declaration : Type := {
  export_as : export_kind;
  declaration : function_declaration
}.

Record es_module : Type := {
  imports : list import_declaration;
  exports : list export_declaration
}.

(** The JSX expression of lines 6 to 10, with the text between the tags as it
    stands in the file: a line break and the indentation of the next line. *)
Definition Exception_jsx : jsx_element :=
  JSXElement "Layout"
    [("title", "Exception");
     ("description", "Explain the Exception exception")]
    [JSXText (JSXText.newline_indent 6);
     JSXChildElement
       (JSXElement "Translate"
          [("description", "Exception description")]
          [JSXText (JSXText.newline_indent 8
                    ++ "An example of an translate."
                    ++ JSXText.newline_indent 6)%string]);
     JSXText (JSXText.newline_indent 4)].

Definition Exception_declaration : function_declaration :=
  {| name := "Exception"; parameters := []; body := Exception_jsx |}.

Definition page : es_module :=
  {| imports :=
       [ {| import_as := ImportDefault; local := "Translate";
            source := "@docusaurus/Translate" |};
         {| import_as := ImportDefault; local := "Layout";
            source := "@theme/Layout" |} ];
     exports :=
       [ {| export_as := ExportDefault;
            declaration := Exception_declaration |} ] |}.

(** [export default function Exception() { return (...) }] *)
Definition Exception (_ : unit) : node :=
  compile_element (body Exception_declaration).




(** ** Walking an element tree *)

Fixpoint count_elements (n : node) : nat :=
  match n with
  | Text _ => 0
  | Element _ _ children =>
      S (fold_right (fun c acc => count_elements c + acc) 0 children)
  end.

(** The component names an element tree uses, in document order. *)
Fixpoint types_used (n : node) : list string :=
  match n with
  | Text _ => []
  | Element type _ children => type :: flat_map types_used children
  end.

(** The text nodes of a tree, each with the names of the elements around it,
    innermost first. *)
Fixpoint text_nodes (around : list string) (n : node)
  : list (list string * string) :=
  match n with
  | Text s => [(around, s)]
  | Element type _ children =>
      flat_map (text_nodes (type :: around)) children
  end.

(** ** The two collaborators

    The page imports two components it does not define.  Each takes one
    record; the records are what the attributes and the children of an
    element are turned into when the host calls the component. *)

Module PageMetadata.
Record t : Type := mk { title : string; description : string }.
End PageMetadata.

Module TranslatableMessage.
Record t : Type := mk { text : string; description : string }.
End TranslatableMessage.

Inductive collaborator : Type :=
| LayoutProvider
| TranslationProvider.

Definition collaborator_of_source (source : string) : option collaborator :=
  if String.eqb source "@theme/Layout" then Some LayoutProvider
  else if String.eqb source "@docusaurus/Translate" then Some TranslationProvider
  else None.

(** The collaborator a component name stands for in module [m]: the name is
    looked up among the imports, the import's source names the provider. *)
Definition resolve (m : es_module) (type : string) : option collaborator :=
  match find (fun d => String.eqb (local d) type) (imports m) with
  | Some d => collaborator_of_source (source d)
  | None => None
  end.

Inductive render_error : Type :=
| UnknownComponent (type : string)
| MissingProp (type prop : string)
| IllegalChildren (type : string).

Inductive result (A : Type) : Type :=
| Ok (a : A)
| Err (e : render_error).

Arguments Ok {A} a.
Arguments Err {A} e.

(** [props.name]: of two attributes of one name the later one counts. *)
Fixpoint prop (name : string) (props : list attribute) : option string :=
  match props with
  | [] => None
  | (k, v) :: rest =>
      match prop name rest with
      | Some v' => Some v'
      | None => if String.eqb k name then Some v else None
      end
  end.

Definition required (type name : string) (props : list attribute)
  : result string :=
  match prop name props with
  | Some v => Ok v
  | None => Err (MissingProp type name)
  end.

(** The configuration a layout element hands to the layout provider. *)
Definition layout_config (type : string) (props : list attribute)
  : result PageMetadata.t :=
  match required type "title" props with
  | Err e => Err e
  | Ok title =>
      match required type "description" props with
      | Err e => Err e
      | Ok description => Ok (PageMetadata.mk title description)
      end
  end.

(** The message a translation element hands to the translation provider: its
    one string child is the source text. *)
Definition translatable_message (type : string) (props : list attribute)
           (children : list node) : result TranslatableMessage.t :=
  match children with
  | [Text s] =>
      match required type "description" props with
      | Err e => Err e
      | Ok description => Ok (TranslatableMessage.mk s description)
      end
  | _ => Err (IllegalChildren type)
  end.

(** ** The rendering host

    The host walks the element tree from the root.  At an element it calls
    the provider the element's type stands for, then renders the children
    inside what the provider gave back.  Providers are the host's: they may
    read and change its state, so a render is a function of the state that
    gives an output and a state, or an error. *)
Section Host.

Variables State Out : Type.

Definition M (A : Type) : Type := State -> result (A * State).

Definition ret {A : Type} (a : A) : M A := fun st => Ok (a, st).

Definition bind {A B : Type} (c : M A) (k : A -> M B) : M B :=
  fun st =>
    match c st with
    | Ok (a, st') => k a st'
    | Err e => Err e
    end.

Definition lift {A : Type} (r : result A) : M A :=
  fun st =>
    match r with
    | Ok a => Ok (a, st)
    | Err e => Err e
    end.

Definition call {A B : Type} (p : A -> State -> B * State) (a : A) : M B :=
  fun st => Ok (p a st).

Notation "x <- c ;; k" := (bind c (fun x => k))
  (at level 61, c at next level, right associativity).

(** How the host shows a string. *)
Variable out_text : string -> Out.

(** Layout provider: from a configuration, a page shell to put the rendered
    children in. *)
Variable layout : PageMetadata.t -> State -> (list Out -> Out) * State.

(** Translation provider: from a message, the string to display. *)
Variable translate : TranslatableMessage.t -> State -> string * State.

Variable m : es_module.

Fixpoint render (n : node) : M Out :=
  match n with
  | Text s => ret (out_text s)
  | Element type props children =>
      match resolve m type with
      | None => lift (Err (UnknownComponent type))
      | Some LayoutProvider =>
          cfg <- lift (layout_config type props) ;;
          shell <- call layout cfg ;;
          inside <- (fix render_all (l : list node) : M (list Out) :=
                       match l with
                       | [] => ret []
                       | c :: cs =>
                           o <- render c ;;
                           os <- render_all cs ;;
                           ret (o :: os)
                       end) children ;;
          ret (shell inside)
      | Some TranslationProvider =>
          msg <- lift (translatable_message type props children) ;;
          s <- call translate msg ;;
          ret (out_text s)
      end
  end.

End Host.

(** One render of the page by a host that resolves names in [page]. *)
Definition render_page {State Out : Type} (out_text : string -> Out)
           (layout : PageMetadata.t -> State -> (list Out -> Out) * State)
           (translate : TranslatableMessage.t -> State -> string * State)
  : M State Out :=
  render out_text layout translate page (Exception tt).

(** A provider that notes each argument it gets in a log kept next to the
    state it works on, and one that works next to such a log. *)
Definition recording {A B S : Type} (p : A -> S -> B * S)
  : A -> S * list A -> B * (S * list A) :=
  fun a st =>
    let '(b, s') := p a (fst st) in (b, (s', snd st ++ [a])).

Definition beside {A B S L : Type} (p : A -> S -> B * S)
  : A -> S * L -> B * (S * L) :=
  fun a st =>
    let '(b, s') := p a (fst st) in (b, (s', snd st)).

(** A concrete host to try renders on: its output is a tree of shells and
    strings, its state the current locale. *)
Inductive dom : Type :=
| DText (s : string)
| DShell (title description : string) (content : list dom).

Definition dom_layout (cfg : PageMetadata.t) (locale : string)
  : (list dom -> dom) * string :=
  (DShell (PageMetadata.title cfg) (PageMetadata.description cfg), locale).

(** No localized variant in any locale: the fallback to the source text. *)
Definition fallback_translate (msg : TranslatableMessage.t) (locale : string)
  : string * string :=
  (TranslatableMessage.text msg, locale).

(** What a result holds when it is not an error. *)
Definition output_of {A S : Type} (r : result (A * S)) : option A :=
  match r with
  | Ok (a, _) => Some a
  | Err _ => None
  end.

Definition state_of {A S : Type} (r : result (A * S)) : option S :=
  match r with
  | Ok (_, st) => Some st
  | Err _ => None
  end.

(** The children of the root of a tree. *)
Definition children_of (n : node) : list node :=
  match n with
  | Text _ => []
  | Element _ _ children => children
  end.

(** The text nodes of a tree that the translation provider does not get:
    those whose innermost enclosing element is not a translation element. *)
Definition untranslated_text_nodes (m : es_module) (n : node) : list string :=
  map snd
    (filter (fun t => match fst t with
                      | type :: _ =>
                          match resolve m type with
                          | Some TranslationProvider => false
                          | _ => true
                          end
                      | [] => true
                      end) (text_nodes [] n)).

(** ** Shapes of JSX text

    Conditions on the characters of a JSX text under which the outcome of
    [JSXText.clean] can be told at once, and the page written with another
    indentation. *)

Definition no_line_break (l : list ascii) : bool :=
  forallb (fun c => negb (JSXText.is_line_break c)) l.

Definition no_tab (l : list ascii) : bool :=
  forallb (fun c => negb (Ascii.eqb c JSXText.TAB)) l.

Definition has_line_break (l : list ascii) : bool :=
  existsb JSXText.is_line_break l.

(** Nothing but spaces, tabs and line breaks. *)
Definition blank_or_break (l : list ascii) : bool :=
  forallb (fun c => JSXText.is_blank c || JSXText.is_line_break c) l.

Definition starts_with_text (l : list ascii) : bool :=
  match l with
  | c :: _ => negb (JSXText.is_blank c)
  | [] => false
  end.

(** One line of text without tabs that begins and ends with a character that
    is not a blank. *)
Definition plain_line (t : string) : bool :=
  let l := list_ascii_of_string t in
  no_line_break l && no_tab l
  && starts_with_text l && starts_with_text (rev l).

(** A character that is neither a line break nor a tab. *)
Definition rendered_char (c : ascii) : bool :=
  negb (JSXText.is_line_break c) && negb (Ascii.eqb c JSXText.TAB).

(** The JSX expression of the page with its four lines indented by [a], [b],
    [c] and [d] spaces; the file has 6, 8, 6 and 4. *)
Definition Exception_jsx_indented (a b c d : nat) : jsx_element :=
  JSXElement "Layout"
    [("title", "Exception");
     ("description", "Explain the Exception exception")]
    [JSXText (JSXText.newline_indent a);
     JSXChildElement
       (JSXElement "Translate"
          [("description", "Exception description")]
          [JSXText (JSXText.newline_indent b
                    ++ "An example of an translate."
                    ++ JSXText.newline_indent c)%string]);
     JSXText (JSXText.newline_indent d)].

(** A character that a JSX text can hold and that stands for itself: none of
    the braces and angle brackets, which a JSX text cannot hold, and no
    ampersand, which opens a character reference that the parser decodes
    before the text is cleaned.  [compile_child] takes the text as written,
    so it gives the child of the transform for texts of such characters. *)
Definition literal_char (c : ascii) : bool :=
  negb (Ascii.eqb c "&"%char)
  && negb (Ascii.eqb c "{"%char) && negb (Ascii.eqb c "}"%char)
  && negb (Ascii.eqb c "<"%char) && negb (Ascii.eqb c ">"%char).

Definition literal_text (l : list ascii) : bool := forallb literal_char l.

(** A JSX expression all of whose texts, at any depth, are of such
    characters. *)
Fixpoint literal_jsx (e : jsx_element) : bool :=
  match e with
  | JSXElement _ _ children => forallb literal_child children
  end
with literal_child (c : jsx_child) : bool :=
  match c with
  | JSXText value => literal_text (list_ascii_of_string value)
  | JSXChildElement e => literal_jsx e
  end.

(** A provider that reads the state of the host and leaves it as it is. *)
Definition reading {A B S : Type} (f : A -> S -> B) : A -> S -> B * S :=
  fun a st => (f a st, st).

(** ** Induction on a JSX expression

    The children of an element are a list of texts and elements; what holds
    of an element when it holds of the elements among its children holds of
    every element. *)

Section jsx_element_induction.

Variable P : jsx_element -> Prop.

Hypothesis element_case :
  forall (name : string) (attributes : list attribute)
         (children : list jsx_child),
    (forall e, In (JSXChildElement e) children -> P e) ->
    P (JSXElement name attributes children).

Fixpoint jsx_element_induction (e : jsx_element) : P e :=
  match e with
  | JSXElement name attributes children =>
      element_case name attributes children
        ((fix all (cs : list jsx_child)
            : forall e', In (JSXChildElement e') cs -> P e' :=
            match cs with
            | [] => fun e' absurd => match absurd with end
            | c :: cs' =>
                fun e' here =>
                  match here with
                  | or_introl same =>
                      match c return c = JSXChildElement e' -> P e' with
                      | JSXText _ =>
                          fun eq =>
                            match eq in _ = x
                                  return match x with
                                         | JSXChildElement e1 => P e1
                                         | JSXText _ => True
                                         end
                            with
                            | eq_refl => I
                            end
                      | JSXChildElement e0 =>
                          fun eq =>
                            match eq in _ = x
                                  return match x with
                                         | JSXChildElement e1 => P e1
                                         | JSXText _ => True
                                         end
                            with
                            | eq_refl => jsx_element_induction e0
                            end
                      end same
                  | or_intror later => all cs' e' later
                  end
            end) children)
  end.

End jsx_element_induction.

(** * Properties *)

(** ** Shared facts *)

(** The element tree the component returns, JSX text cleaned. *)
Lemma Exception_unfold (u : unit) :
  Exception u =
  Element "Layout"
    [("title", "Exception");
     ("description", "Explain the Exception exception")]
    [Element "Translate"
       [("description", "Exception description")]
       [Text "An example of an translate."]].
Proof. reflexivity. Qed.

(** One render of the page is one call of the layout provider followed by one
    call of the translation provider, and nothing else. *)
Lemma render_page_unfold (State Out : Type) (out_text : string -> Out)
      (layout : PageMetadata.t -> State -> (list Out -> Out) * State)
      (translate : TranslatableMessage.t -> State -> string * State)
      (st : State) :
  render_page out_text layout translate st =
  let '(shell, st1) :=
    layout (PageMetadata.mk "Exception" "Explain the Exception exception") st in
  let '(s, st2) :=
    translate (TranslatableMessage.mk "An example of an translate."
                                      "Exception description") st1 in
  Ok (shell [out_text s], st2).
Proof.
  unfold render_page. rewrite Exception_unfold.
  cbn. unfold bind, call, lift, ret. cbn.
  destruct (layout _ st) as [shell st1].
  destruct (translate _ st1) as [s st2].
  reflexivity.
Qed.

(** ** The configuration of the layout *)

(** C1: in every render of the page (any host output, any state, any pair of
    providers) the layout provider is called with exactly
    [{ title: "Exception", description: "Explain the Exception exception" }];
    when the layout provider records what it is called with, one render adds
    exactly one entry to its record, that configuration. *)
Theorem layout_configuration_recorded_once
        (State Out : Type) (out_text : string -> Out)
        (layout : PageMetadata.t -> State -> (list Out -> Out) * State)
        (translate : TranslatableMessage.t -> State -> string * State)
        (st : State) (log : list PageMetadata.t) :
  exists (out : Out) (st' : State),
    render_page out_text (recording layout) (beside translate) (st, log)
    = Ok (out,
          (st',
           log ++ [PageMetadata.mk "Exception"
                                   "Explain the Exception exception"])).
Proof.
  rewrite render_page_unfold.
  unfold recording, beside; cbn [fst snd].
  destruct (layout _ st) as [shell st1]; cbn [fst snd].
  destruct (translate _ st1) as [s st2].
  eexists; eexists; reflexivity.
Qed.

(** ** The message of the translation *)

(** C2: in every render of the page the translation provider is called with
    exactly [{ text: "An example of an translate.",
    description: "Exception description" }]: a translation provider that
    records its argument ends one render with that message added to its
    record, and nothing else. *)
Theorem translation_message_recorded
        (State Out : Type) (out_text : string -> Out)
        (layout : PageMetadata.t -> State -> (list Out -> Out) * State)
        (translate : TranslatableMessage.t -> State -> string * State)
        (st : State) (log : list TranslatableMessage.t) :
  exists (out : Out) (st' : State),
    render_page out_text (beside layout) (recording translate) (st, log)
    = Ok (out,
          (st',
           log ++ [TranslatableMessage.mk "An example of an translate."
                                          "Exception description"])).
Proof.
  rewrite render_page_unfold.
  unfold recording, beside; cbn [fst snd].
  destruct (layout _ st) as [shell st1]; cbn [fst snd].
  destruct (translate _ st1) as [s st2].
  eexists; eexists; reflexivity.
Qed.

(** ** The shape of the tree *)

(** C3: the tree the component returns has exactly two elements, one inside
    the other: the layout element with the fixed title and description, whose
    only child is the translation element, whose only child is its source
    text; the blank text around the tags in the source leaves no node. *)
Theorem render_tree_two_nested_elements (u : unit) :
  Exception u =
  Element "Layout"
    [("title", "Exception");
     ("description", "Explain the Exception exception")]
    [Element "Translate"
       [("description", "Exception description")]
       [Text "An example of an translate."]]
  /\ count_elements (Exception u) = 2
  /\ List.length (children_of (Exception u)) = 1
  /\ map (resolve page) (types_used (Exception u))
     = [Some LayoutProvider; Some TranslationProvider].
Proof. repeat split. Qed.

(** ** The text on the page *)

(** C4: when the translation provider gives back the source text of the
    message it gets, the page shell holds one string,
    ["An example of an translate."], with none of the line breaks and
    indentation that surround it in the source. *)
Theorem identity_translation_text_verbatim
        (State Out : Type) (out_text : string -> Out)
        (layout : PageMetadata.t -> State -> (list Out -> Out) * State)
        (translate : TranslatableMessage.t -> State -> string * State)
        (identity : forall msg st,
            translate msg st = (TranslatableMessage.text msg, st))
        (st : State) :
  let cfg := PageMetadata.mk "Exception" "Explain the Exception exception" in
  render_page out_text layout translate st
  = Ok (fst (layout cfg st) [out_text "An example of an translate."],
        snd (layout cfg st))
  /\ JSXText.clean (JSXText.newline_indent 8
                    ++ "An example of an translate."
                    ++ JSXText.newline_indent 6)%string
     = Some "An example of an translate.".
Proof.
  cbn zeta. split; [|reflexivity].
  rewrite render_page_unfold.
  destruct (layout _ st) as [shell st1].
  rewrite identity. reflexivity.
Qed.

Lemma identity_translation_text_verbatim_witness :
  render_page DText dom_layout fallback_translate "en"
  = Ok (DShell "Exception" "Explain the Exception exception"
               [DText "An example of an translate."],
        "en").
Proof.
  exact (proj1 (identity_translation_text_verbatim
                  DText dom_layout fallback_translate
                  (fun _ _ => eq_refl) "en")).
Defined.

(** ** Rendering twice *)

(** C5: two invocations of the component return the same element tree, and
    when the providers leave the state of the host as it is, rendering the
    page twice in a row gives the same output twice. *)
Theorem render_twice_same_tree
        (State Out : Type) (out_text : string -> Out)
        (layout : PageMetadata.t -> State -> (list Out -> Out) * State)
        (translate : TranslatableMessage.t -> State -> string * State)
        (layout_keeps : forall cfg st, snd (layout cfg st) = st)
        (translate_keeps : forall msg st, snd (translate msg st) = st)
        (st : State) :
  (forall u1 u2 : unit, Exception u1 = Exception u2)
  /\ exists out : Out,
      render_page out_text layout translate st = Ok (out, st)
      /\ bind (render_page out_text layout translate)
              (fun first =>
                 bind (render_page out_text layout translate)
                      (fun second => ret (first, second))) st
         = Ok ((out, out), st).
Proof.
  split; [intros [] []; reflexivity|].
  assert (once : exists out,
             render_page out_text layout translate st = Ok (out, st)).
  { rewrite render_page_unfold.
    pose proof (layout_keeps
                  (PageMetadata.mk "Exception"
                                   "Explain the Exception exception") st) as Hl.
    destruct (layout _ st) as [shell st1]; cbn in Hl; subst st1.
    pose proof (translate_keeps
                  (TranslatableMessage.mk "An example of an translate."
                                          "Exception description") st) as Ht.
    destruct (translate _ st) as [s st2]; cbn in Ht; subst st2.
    eexists; reflexivity. }
  destruct once as [out Hout].
  exists out; split; [exact Hout|].
  unfold bind, ret. rewrite Hout. rewrite Hout. reflexivity.
Qed.

Lemma render_twice_same_tree_witness :
  exists out : dom,
    render_page DText dom_layout fallback_translate "fr" = Ok (out, "fr")
    /\ bind (render_page DText dom_layout fallback_translate)
            (fun first =>
               bind (render_page DText dom_layout fallback_translate)
                    (fun second => ret (first, second))) "fr"
       = Ok ((out, out), "fr").
Proof.
  exact (proj2 (render_twice_same_tree
                  DText dom_layout fallback_translate
                  (fun _ _ => eq_refl) (fun _ _ => eq_refl) "fr")).
Defined.

(** ** No failure *)

(** C6: rendering the page never fails: for every host, every pair of
    providers and every state, the render gives an output and a state, and
    none of the errors of the host (unknown component, missing attribute,
    children that are not one string). *)
Theorem render_page_total
        (State Out : Type) (out_text : string -> Out)
        (layout : PageMetadata.t -> State -> (list Out -> Out) * State)
        (translate : TranslatableMessage.t -> State -> string * State)
        (st : State) :
  (exists (out : Out) (st' : State),
      render_page out_text layout translate st = Ok (out, st'))
  /\ (forall e : render_error,
         render_page out_text layout translate st <> Err e).
Proof.
  rewrite render_page_unfold.
  destruct (layout _ st) as [shell st1].
  destruct (translate _ st1) as [s st2].
  split; [eexists; eexists; reflexivity | discriminate].
Qed.

(** ** No effect of its own *)

(** C7: a render of the page changes the state of the host (all there is to
    read or write outside the component: shared data, input and output) only
    through its two provider calls: for every pair of providers the state
    after the render is the one the layout provider, called with the literal
    configuration, and then the translation provider, called with the
    literal message, leave.  The two records are the same whatever the
    state: providers that note their arguments end the render with the one
    literal each and no other change.  With providers that read the state
    and do not change it, the state after the render is the state before
    it. *)
Theorem render_page_frame
        (State Out : Type) (out_text : string -> Out)
        (layout : PageMetadata.t -> State -> (list Out -> Out) * State)
        (translate : TranslatableMessage.t -> State -> string * State)
        (st : State) :
  let cfg := PageMetadata.mk "Exception" "Explain the Exception exception" in
  let msg := TranslatableMessage.mk "An example of an translate."
                                    "Exception description" in
  state_of (render_page out_text layout translate st)
  = Some (snd (translate msg (snd (layout cfg st))))
  /\ (forall (configs : list PageMetadata.t)
             (messages : list TranslatableMessage.t),
         state_of (render_page out_text
                               (beside (recording layout))
                               (recording (beside translate))
                               ((st, configs), messages))
         = Some ((snd (translate msg (snd (layout cfg st))),
                  configs ++ [cfg]),
                 messages ++ [msg]))
  /\ (forall (shell_of : PageMetadata.t -> State -> list Out -> Out)
             (string_of : TranslatableMessage.t -> State -> string),
         state_of (render_page out_text
                               (reading shell_of) (reading string_of) st)
         = Some st).
Proof.
  cbn zeta. split; [|split].
  - rewrite render_page_unfold.
    destruct (layout _ st) as [shell st1]; cbn [snd].
    destruct (translate _ st1) as [s st2]; reflexivity.
  - intros configs messages.
    rewrite render_page_unfold.
    unfold recording, beside; cbn [fst snd].
    destruct (layout _ st) as [shell st1]; cbn [fst snd].
    destruct (translate _ st1) as [s st2]; reflexivity.
  - intros shell_of string_of.
    rewrite render_page_unfold. reflexivity.
Qed.

(** ** The two collaborators and nothing else *)

(** C8: the module imports the translation and the layout component and
    nothing else, the component takes no parameter, the names its tree uses
    are the two imported ones, and a render of the page is the layout
    provider applied to a literal, then the translation provider applied to
    a literal, the translated string put in the shell: no other function of
    the host and no other part of its state comes in. *)
Theorem page_depends_on_two_providers
        (State Out : Type) (out_text : string -> Out)
        (layout : PageMetadata.t -> State -> (list Out -> Out) * State)
        (translate : TranslatableMessage.t -> State -> string * State)
        (st : State) :
  map source (imports page) = ["@docusaurus/Translate"; "@theme/Layout"]
  /\ map collaborator_of_source (map source (imports page))
     = [Some TranslationProvider; Some LayoutProvider]
  /\ parameters Exception_declaration = []
  /\ types_used (Exception tt) = ["Layout"; "Translate"]
  /\ render_page out_text layout translate st
     = let '(shell, st1) :=
         layout (PageMetadata.mk "Exception"
                                 "Explain the Exception exception") st in
       let '(s, st2) :=
         translate (TranslatableMessage.mk "An example of an translate."
                                           "Exception description") st1 in
       Ok (shell [out_text s], st2).
Proof.
  repeat split. apply render_page_unfold.
Qed.

(** ** The export *)


(** ** Text and translation *)

(** C10: the tree has one text node, it lies directly inside the translation
    element, and that element is the only child of the layout element: no
    text node of the tree escapes the translation provider. *)
Theorem text_nodes_inside_translation (u : unit) :
  text_nodes [] (Exception u)
  = [(["Translate"; "Layout"], "An example of an translate.")]
  /\ untranslated_text_nodes page (Exception u) = []
  /\ children_of (Exception u)
     = [Element "Translate"
          [("description", "Exception description")]
          [Text "An example of an translate."]]
  /\ map (resolve page) (types_used (Exception u))
     = [Some LayoutProvider; Some TranslationProvider].
Proof. repeat split. Qed.

(** * The whitespace rule of JSX text *)

(** ** Characters and lines *)

Lemma list_ascii_of_string_app (s1 s2 : string) :
  list_ascii_of_string (s1 ++ s2)%string
  = list_ascii_of_string s1 ++ list_ascii_of_string s2.
Proof.
  induction s1 as [|c s1 IH]; cbn; [reflexivity | now rewrite IH].
Qed.

Lemma list_ascii_of_spaces (n : nat) :
  list_ascii_of_string (JSXText.spaces n) = repeat JSXText.SPACE n.
Proof.
  induction n as [|n IH]; cbn; [reflexivity | now rewrite IH].
Qed.

Lemma forallb_rev (A : Type) (f : A -> bool) (l : list A) :
  forallb f (rev l) = forallb f l.
Proof.
  induction l as [|a l IH]; cbn; [reflexivity|].
  rewrite forallb_app, IH; cbn.
  rewrite andb_true_r. apply andb_comm.
Qed.

Lemma no_line_break_spaces (n : nat) :
  no_line_break (repeat JSXText.SPACE n) = true.
Proof. induction n as [|n IH]; cbn; [reflexivity | exact IH]. Qed.

Lemma split_not_nil (l : list ascii) : JSXText.split l <> [].
Proof.
  induction l as [|c l IH]; cbn [JSXText.split]; [discriminate|].
  destruct (JSXText.is_line_break c).
  - destruct (Ascii.eqb c JSXText.CR && JSXText.starts_with_LF l);
      [exact IH | discriminate].
  - destruct (JSXText.split l); discriminate.
Qed.

(** A text without a line break is one line. *)
Lemma split_single (l : list ascii) :
  no_line_break l = true -> JSXText.split l = [l].
Proof.
  induction l as [|c l IH]; intros H; [reflexivity|].
  cbn in H. apply andb_true_iff in H. destruct H as [Hc Hl].
  apply negb_true_iff in Hc.
  cbn [JSXText.split]. rewrite Hc, (IH Hl). reflexivity.
Qed.

(** A line feed ends the line before it. *)
Lemma split_at_LF (l rest : list ascii) :
  no_line_break l = true ->
  JSXText.split (l ++ JSXText.LF :: rest) = l :: JSXText.split rest.
Proof.
  induction l as [|c l IH]; intros H.
  - reflexivity.
  - cbn in H. apply andb_true_iff in H. destruct H as [Hc Hl].
    apply negb_true_iff in Hc.
    cbn [JSXText.split app]. rewrite Hc, (IH Hl). reflexivity.
Qed.

Lemma split_LF (rest : list ascii) :
  JSXText.split (JSXText.LF :: rest) = [] :: JSXText.split rest.
Proof. exact (split_at_LF [] rest eq_refl). Qed.

(** The lines of a text hold no line break. *)
Lemma split_lines_no_break (l : list ascii) :
  Forall (fun x => no_line_break x = true) (JSXText.split l).
Proof.
  induction l as [|c l IH]; cbn [JSXText.split].
  - repeat constructor.
  - destruct (JSXText.is_line_break c) eqn:Hc.
    + destruct (Ascii.eqb c JSXText.CR && JSXText.starts_with_LF l);
        [exact IH | constructor; [reflexivity | exact IH]].
    + destruct (JSXText.split l) as [|l0 ls].
      * repeat constructor. cbn. now rewrite Hc.
      * inversion IH as [|? ? H0 Hls]; subst.
        constructor; [|exact Hls]. cbn. now rewrite Hc.
Qed.

(** The lines of a text of blanks and line breaks hold blanks only. *)
Lemma split_lines_blank (l : list ascii) :
  blank_or_break l = true ->
  Forall (fun x => forallb JSXText.is_blank x = true) (JSXText.split l).
Proof.
  induction l as [|c l IH]; intros H; cbn [JSXText.split].
  - repeat constructor.
  - cbn in H. apply andb_true_iff in H. destruct H as [Hc Hl].
    specialize (IH Hl).
    destruct (JSXText.is_line_break c) eqn:Hb.
    + destruct (Ascii.eqb c JSXText.CR && JSXText.starts_with_LF l);
        [exact IH | constructor; [reflexivity | exact IH]].
    + rewrite orb_false_r in Hc.
      destruct (JSXText.split l) as [|l0 ls].
      * repeat constructor. cbn. now rewrite Hc.
      * inversion IH as [|? ? H0 Hls]; subst.
        constructor; [|exact Hls]. cbn. now rewrite Hc.
Qed.

(** A text with a line break has two lines at least. *)
Lemma split_two_lines (l : list ascii) :
  has_line_break l = true ->
  exists l0 l1 ls, JSXText.split l = l0 :: l1 :: ls.
Proof.
  induction l as [|c l IH]; intros H; [discriminate|].
  cbn [JSXText.split]. cbn in H.
  destruct (JSXText.is_line_break c) eqn:Hb.
  - destruct (Ascii.eqb c JSXText.CR && JSXText.starts_with_LF l) eqn:Hcr.
    + apply IH. apply andb_true_iff in Hcr. destruct Hcr as [_ Hlf].
      destruct l as [|c' l']; [discriminate|].
      cbn in Hlf. cbn. unfold JSXText.is_line_break. now rewrite Hlf.
    + pose proof (split_not_nil l) as Hnil.
      destruct (JSXText.split l) as [|l1 ls]; [contradiction|].
      now exists [], l1, ls.
  - cbn in H. destruct (IH H) as (l0 & l1 & ls & E).
    rewrite E. now exists (c :: l0), l1, ls.
Qed.

(** ** Trimming *)

Lemma untab_spaces (n : nat) :
  JSXText.untab (repeat JSXText.SPACE n) = repeat JSXText.SPACE n.
Proof.
  induction n as [|n IH]; cbn; [reflexivity|].
  unfold JSXText.untab in IH. now rewrite IH.
Qed.

Lemma untab_no_tab (l : list ascii) :
  no_tab l = true -> JSXText.untab l = l.
Proof.
  induction l as [|c l IH]; intros H; [reflexivity|].
  cbn in H. apply andb_true_iff in H. destruct H as [Hc Hl].
  apply negb_true_iff in Hc.
  cbn. rewrite Hc. f_equal. exact (IH Hl).
Qed.

Lemma trim_start_spaces (n : nat) (l : list ascii) :
  JSXText.trim_start (repeat JSXText.SPACE n ++ l) = JSXText.trim_start l.
Proof. induction n as [|n IH]; cbn; [reflexivity | exact IH]. Qed.

Lemma trim_start_text (l : list ascii) :
  starts_with_text l = true -> JSXText.trim_start l = l.
Proof.
  destruct l as [|c l]; intros H; [discriminate|].
  cbn in H. apply negb_true_iff in H.
  apply orb_false_iff in H. destruct H as [Hs _].
  cbn. now rewrite Hs.
Qed.

Lemma trim_end_text (l : list ascii) :
  starts_with_text (rev l) = true -> JSXText.trim_end l = l.
Proof.
  intros H. unfold JSXText.trim_end.
  rewrite (trim_start_text _ H). apply rev_involutive.
Qed.

Lemma trim_start_untab_blank (l : list ascii) :
  forallb JSXText.is_blank l = true ->
  JSXText.trim_start (JSXText.untab l) = [].
Proof.
  induction l as [|c l IH]; intros H; [reflexivity|].
  cbn in H. apply andb_true_iff in H. destruct H as [Hc Hl].
  cbn [JSXText.untab map JSXText.trim_start].
  destruct (Ascii.eqb c JSXText.TAB) eqn:Ht.
  - cbn. exact (IH Hl).
  - unfold JSXText.is_blank in Hc. rewrite Ht, orb_false_r in Hc.
    rewrite Hc. exact (IH Hl).
Qed.

Lemma trim_end_untab_blank (l : list ascii) :
  forallb JSXText.is_blank l = true ->
  JSXText.trim_end (JSXText.untab l) = [].
Proof.
  intros H. unfold JSXText.trim_end, JSXText.untab.
  rewrite <- map_rev.
  change (map _ (rev l)) with (JSXText.untab (rev l)).
  rewrite trim_start_untab_blank; [reflexivity|].
  now rewrite forallb_rev.
Qed.

Lemma has_text_spaces (n : nat) :
  JSXText.has_text (repeat JSXText.SPACE n) = false.
Proof. induction n as [|n IH]; cbn; [reflexivity | exact IH]. Qed.

Lemma has_text_indented (n : nat) (l : list ascii) :
  starts_with_text l = true ->
  JSXText.has_text (repeat JSXText.SPACE n ++ l) = true.
Proof.
  intros H. unfold JSXText.has_text. rewrite existsb_app.
  destruct l as [|c l]; [discriminate|].
  cbn in H. cbn. rewrite H. apply orb_true_r.
Qed.

(** ** The second loop *)

(** One turn of the loop. *)
Lemma gather_step (line : list ascii) (ls : list (list ascii))
      (i count last : nat) (str : list ascii) :
  JSXText.gather (line :: ls) i count last str =
  let t1 := if Nat.eqb i 0 then JSXText.untab line
            else JSXText.trim_start (JSXText.untab line) in
  let t2 := if Nat.eqb i (count - 1) then t1 else JSXText.trim_end t1 in
  match t2 with
  | [] => JSXText.gather ls (S i) count last str
  | _ :: _ =>
      JSXText.gather ls (S i) count last
        (str ++ if Nat.eqb i last then t2 else t2 ++ [JSXText.SPACE])
  end.
Proof. reflexivity. Qed.

(** After the first line, lines of blanks add nothing. *)
Lemma gather_blank_rest (ls : list (list ascii)) :
  Forall (fun x => forallb JSXText.is_blank x = true) ls ->
  forall (i count last : nat) (str : list ascii),
    i <> 0 -> JSXText.gather ls i count last str = str.
Proof.
  induction 1 as [|l ls Hl _ IH]; intros i count last str Hi; [reflexivity|].
  destruct i as [|i]; [contradiction|].
  rewrite gather_step. cbv zeta.
  change (Nat.eqb (S i) 0) with false. cbv iota.
  rewrite (trim_start_untab_blank _ Hl).
  change (JSXText.trim_end []) with (@nil ascii).
  destruct (Nat.eqb (S i) (count - 1)); apply IH; discriminate.
Qed.

(** A text of blanks with a line break in it leaves nothing. *)
Lemma gather_blank_text (l : list ascii) (last : nat) :
  blank_or_break l = true -> has_line_break l = true ->
  JSXText.gather (JSXText.split l) 0 (List.length (JSXText.split l)) last []
  = [].
Proof.
  intros Hb Hl.
  pose proof (split_lines_blank l Hb) as Hall.
  destruct (split_two_lines l Hl) as (l0 & l1 & ls & E).
  rewrite E in *.
  inversion Hall as [|? ? H0 Hrest]; subst.
  rewrite gather_step. cbv zeta.
  change (Nat.eqb 0 0) with true.
  change (Nat.eqb 0 (List.length (l0 :: l1 :: ls) - 1)) with false.
  cbv iota.
  rewrite (trim_end_untab_blank _ H0).
  apply gather_blank_rest; [exact Hrest | discriminate].
Qed.

(** One line of text on a line of its own, between a line break and the
    indentation of the closing tag. *)
Lemma gather_own_line (a b : nat) (t : list ascii) :
  no_tab t = true -> starts_with_text t = true ->
  starts_with_text (rev t) = true ->
  let lines := [[]; repeat JSXText.SPACE a ++ t; repeat JSXText.SPACE b] in
  JSXText.gather lines 0 3 (JSXText.last_non_empty_line lines 0 0) [] = t.
Proof.
  intros Htab Hfirst Hlast. cbv zeta.
  assert (Hlastline :
            JSXText.last_non_empty_line
              [[]; repeat JSXText.SPACE a ++ t; repeat JSXText.SPACE b] 0 0
            = 1).
  { cbn [JSXText.last_non_empty_line].
    rewrite (has_text_indented a _ Hfirst), has_text_spaces. reflexivity. }
  rewrite Hlastline.
  (* the empty line after the opening tag *)
  rewrite gather_step. cbv zeta.
  change (Nat.eqb 0 0) with true. change (Nat.eqb 0 (3 - 1)) with false.
  cbv iota.
  change (JSXText.trim_end (JSXText.untab [])) with (@nil ascii).
  (* the line of the text *)
  rewrite gather_step. cbv zeta.
  change (Nat.eqb 1 0) with false. change (Nat.eqb 1 (3 - 1)) with false.
  change (Nat.eqb 1 1) with true.
  cbv iota.
  assert (Hline :
            JSXText.trim_end
              (JSXText.trim_start
                 (JSXText.untab (repeat JSXText.SPACE a ++ t))) = t).
  { unfold JSXText.untab. rewrite map_app.
    change (map _ (repeat JSXText.SPACE a))
      with (JSXText.untab (repeat JSXText.SPACE a)).
    change (map _ t) with (JSXText.untab t).
    rewrite untab_spaces, (untab_no_tab _ Htab).
    rewrite trim_start_spaces, (trim_start_text _ Hfirst).
    apply (trim_end_text _ Hlast). }
  rewrite Hline.
  destruct t as [|c t]; [discriminate|].
  (* the indentation of the closing tag *)
  rewrite gather_step. cbv zeta.
  change (Nat.eqb 2 0) with false. change (Nat.eqb 2 (3 - 1)) with true.
  cbv iota.
  rewrite untab_spaces.
  rewrite <- (app_nil_r (repeat JSXText.SPACE b)), trim_start_spaces.
  reflexivity.
Qed.

(** ** What [clean] gives *)

Lemma clean_blank (value : string) :
  blank_or_break (list_ascii_of_string value) = true ->
  has_line_break (list_ascii_of_string value) = true ->
  JSXText.clean value = None.
Proof.
  intros Hb Hl. unfold JSXText.clean. cbv zeta.
  now rewrite (gather_blank_text _ _ Hb Hl).
Qed.

Lemma clean_newline_indent (n : nat) :
  JSXText.clean (JSXText.newline_indent n) = None.
Proof.
  apply clean_blank; cbn; [|reflexivity].
  rewrite list_ascii_of_spaces.
  induction n as [|n IH]; [reflexivity | exact IH].
Qed.

Lemma clean_own_line (a b : nat) (t : string) :
  plain_line t = true ->
  JSXText.clean (JSXText.newline_indent a ++ t ++ JSXText.newline_indent b)%string
  = Some t.
Proof.
  unfold plain_line. cbv zeta. intros H.
  apply andb_true_iff in H. destruct H as [H Hlast].
  apply andb_true_iff in H. destruct H as [H Hfirst].
  apply andb_true_iff in H. destruct H as [Hbreak Htab].
  unfold JSXText.clean, JSXText.newline_indent. cbv zeta.
  cbn [append list_ascii_of_string].
  rewrite !list_ascii_of_string_app. cbn [list_ascii_of_string].
  rewrite !list_ascii_of_spaces.
  set (lt := list_ascii_of_string t) in *.
  assert (Hsplit :
            JSXText.split
              (JSXText.LF
                 :: repeat JSXText.SPACE a ++ lt
                 ++ JSXText.LF :: repeat JSXText.SPACE b)
            = [[]; repeat JSXText.SPACE a ++ lt; repeat JSXText.SPACE b]).
  { rewrite split_LF. f_equal.
    rewrite app_assoc, split_at_LF.
    - f_equal. apply split_single, no_line_break_spaces.
    - unfold no_line_break. rewrite forallb_app.
      apply andb_true_iff. split; [apply no_line_break_spaces | exact Hbreak]. }
  rewrite Hsplit. cbn [List.length].
  rewrite (gather_own_line a b lt Htab Hfirst Hlast).
  assert (E : string_of_list_ascii lt = t)
    by apply string_of_list_ascii_of_string.
  destruct lt as [|c lt']; [discriminate | now rewrite E].
Qed.

Lemma clean_single_line (s : string) :
  no_line_break (list_ascii_of_string s) = true -> s <> EmptyString ->
  JSXText.clean s
  = Some (string_of_list_ascii (JSXText.untab (list_ascii_of_string s))).
Proof.
  intros Hbreak Hne. unfold JSXText.clean. cbv zeta.
  rewrite (split_single _ Hbreak). cbn [List.length].
  rewrite gather_step. cbv zeta.
  change (Nat.eqb 0 0) with true. change (Nat.eqb 0 (1 - 1)) with true.
  cbv iota.
  destruct s as [|c s]; [contradiction|].
  cbn [list_ascii_of_string JSXText.untab map JSXText.gather app].
  cbn [JSXText.last_non_empty_line].
  destruct (JSXText.has_text (c :: list_ascii_of_string s)); reflexivity.
Qed.

(** ** No line break and no tab in what is kept *)

Lemma untab_rendered (line : list ascii) :
  no_line_break line = true ->
  forallb rendered_char (JSXText.untab line) = true.
Proof.
  induction line as [|c l IH]; intros H; [reflexivity|].
  cbn in H. apply andb_true_iff in H. destruct H as [Hc Hl].
  cbn [JSXText.untab map forallb]. apply andb_true_iff. split.
  - destruct (Ascii.eqb c JSXText.TAB) eqn:Ht; [reflexivity|].
    unfold rendered_char. now rewrite Hc, Ht.
  - exact (IH Hl).
Qed.

Lemma trim_start_rendered (f : ascii -> bool) (l : list ascii) :
  forallb f l = true -> forallb f (JSXText.trim_start l) = true.
Proof.
  induction l as [|c l IH]; intros H; [reflexivity|].
  cbn [JSXText.trim_start].
  destruct (Ascii.eqb c JSXText.SPACE); [|exact H].
  cbn in H. apply andb_true_iff in H. apply IH, H.
Qed.

Lemma trim_end_rendered (f : ascii -> bool) (l : list ascii) :
  forallb f l = true -> forallb f (JSXText.trim_end l) = true.
Proof.
  intros H. unfold JSXText.trim_end. rewrite forallb_rev.
  apply trim_start_rendered. now rewrite forallb_rev.
Qed.

Lemma gather_rendered (lines : list (list ascii)) :
  Forall (fun x => no_line_break x = true) lines ->
  forall (i count last : nat) (str : list ascii),
    forallb rendered_char str = true ->
    forallb rendered_char (JSXText.gather lines i count last str) = true.
Proof.
  induction 1 as [|line ls Hline _ IH]; intros i count last str Hstr;
    [exact Hstr|].
  rewrite gather_step. cbv zeta.
  set (t1 := if Nat.eqb i 0 then JSXText.untab line
             else JSXText.trim_start (JSXText.untab line)).
  set (t2 := if Nat.eqb i (count - 1) then t1 else JSXText.trim_end t1).
  assert (H1 : forallb rendered_char t1 = true).
  { unfold t1. destruct (Nat.eqb i 0);
      [|apply trim_start_rendered]; apply untab_rendered, Hline. }
  assert (H2 : forallb rendered_char t2 = true).
  { unfold t2. destruct (Nat.eqb i (count - 1));
      [|apply trim_end_rendered]; exact H1. }
  destruct t2 as [|c t2']; [apply IH, Hstr|].
  apply IH. rewrite forallb_app, Hstr.
  destruct (Nat.eqb i last); [exact H2|].
  rewrite forallb_app, H2. reflexivity.
Qed.

Lemma rendered_no_line_break (l : list ascii) :
  forallb rendered_char l = true -> no_line_break l = true.
Proof.
  induction l as [|c l IH]; intros H; [reflexivity|].
  cbn in H. apply andb_true_iff in H. destruct H as [Hc Hl].
  unfold rendered_char in Hc. apply andb_true_iff in Hc.
  cbn. rewrite (proj1 Hc). exact (IH Hl).
Qed.

Lemma clean_rendered (value s : string) :
  JSXText.clean value = Some s ->
  forallb rendered_char (list_ascii_of_string s) = true.
Proof.
  unfold JSXText.clean. cbv zeta.
  set (lines := JSXText.split (list_ascii_of_string value)).
  intros H.
  pose proof (gather_rendered
                (split_lines_no_break (list_ascii_of_string value))
                0 (List.length lines)
                (JSXText.last_non_empty_line lines 0 0) [] eq_refl) as G.
  fold lines in G.
  destruct (JSXText.gather lines 0 (List.length lines)
              (JSXText.last_non_empty_line lines 0 0) []) as [|c str];
    [discriminate|].
  assert (E : s = string_of_list_ascii (c :: str))
    by (injection H; intros e; symmetry; exact e).
  rewrite E, list_ascii_of_string_of_list_ascii. exact G.
Qed.

(** * Text children *)

Lemma compile_text (value : string) :
  compile_child (JSXText value)
  = match JSXText.clean value with
    | Some s => [Text s]
    | None => []
    end.
Proof. reflexivity. Qed.

Lemma compile_element_unfold (name : string) (attributes : list attribute)
      (children : list jsx_child) :
  compile_element (JSXElement name attributes children)
  = Element name attributes (flat_map compile_child children).
Proof. reflexivity. Qed.

(** X1: a JSX text made of spaces, tabs and line breaks, with one line break
    at least, gives the element no child: the line break and indentation
    between two tags never reach the tree. *)
Theorem blank_text_emits_no_child (value : string) :
  blank_or_break (list_ascii_of_string value) = true ->
  has_line_break (list_ascii_of_string value) = true ->
  compile_child (JSXText value) = [].
Proof.
  intros Hb Hl. rewrite compile_text. now rewrite (clean_blank _ Hb Hl).
Qed.

Lemma blank_text_emits_no_child_witness :
  compile_child (JSXText (JSXText.newline_indent 6)) = [].
Proof.
  exact (blank_text_emits_no_child (JSXText.newline_indent 6)
           eq_refl eq_refl).
Defined.

(** X2: one line of text without tabs, ampersand, brace or angle bracket,
    first and last character not blank, written on a line of its own between
    the tags, is the one child of the element, whatever the indentation of
    its line and of the closing tag. *)
Theorem text_on_own_line_is_the_child (t : string) (a b : nat) :
  plain_line t = true ->
  literal_text (list_ascii_of_string t) = true ->
  compile_child
    (JSXText (JSXText.newline_indent a ++ t ++ JSXText.newline_indent b)%string)
  = [Text t].
Proof.
  intros H _. rewrite compile_text. now rewrite (clean_own_line a b t H).
Qed.

Lemma text_on_own_line_is_the_child_witness :
  compile_child
    (JSXText (JSXText.newline_indent 2 ++ "a  b" ++ JSXText.newline_indent 0)%string)
  = [Text "a  b"].
Proof.
  exact (text_on_own_line_is_the_child "a  b" 2 0 eq_refl eq_refl).
Defined.

(** X3: a JSX text that is not empty and holds no line break, tab,
    ampersand, brace or angle bracket is kept as it is, blanks at both ends
    included: trimming happens at line breaks only. *)
Theorem single_line_text_keeps_its_blanks (s : string) :
  no_line_break (list_ascii_of_string s) = true ->
  no_tab (list_ascii_of_string s) = true ->
  literal_text (list_ascii_of_string s) = true ->
  s <> EmptyString ->
  compile_child (JSXText s) = [Text s].
Proof.
  intros Hb Ht _ Hne. rewrite compile_text.
  rewrite (clean_single_line Hb Hne), (untab_no_tab _ Ht).
  now rewrite string_of_list_ascii_of_string.
Qed.

Lemma single_line_text_keeps_its_blanks_witness :
  compile_child (JSXText "  an translate. ") = [Text "  an translate. "].
Proof.
  apply (single_line_text_keeps_its_blanks (s := "  an translate. "));
    [reflexivity | reflexivity | reflexivity | discriminate].
Defined.

(** X4: take a JSX expression built of elements with string attributes, of
    nested elements and of JSX texts without ampersand, brace or angle
    bracket.  No text child in its tree holds a line break, however deep
    the text lies. *)
Theorem compiled_text_has_no_line_break
        (e : jsx_element) (around : list string)
        (x : list string * string) :
  literal_jsx e = true ->
  In x (text_nodes around (compile_element e)) ->
  no_line_break (list_ascii_of_string (snd x)) = true.
Proof.
  revert around x.
  induction e as [name attributes children IH] using jsx_element_induction.
  intros around x Hlit Hx.
  cbn [literal_jsx] in Hlit.
  rewrite compile_element_unfold in Hx. cbn [text_nodes] in Hx.
  apply in_flat_map in Hx. destruct Hx as (y & Hy & Hxy).
  apply in_flat_map in Hy. destruct Hy as (c & Hc & Hyc).
  pose proof (proj1 (forallb_forall _ _) Hlit c Hc) as Hlc.
  destruct c as [value | e0].
  - rewrite compile_text in Hyc.
    destruct (JSXText.clean value) as [s|] eqn:E; [|contradiction].
    destruct Hyc as [<- | []].
    destruct Hxy as [<- | []].
    exact (rendered_no_line_break _ (clean_rendered _ E)).
  - destruct Hyc as [<- | []].
    exact (IH e0 Hc _ _ Hlc Hxy).
Qed.

Lemma compiled_text_has_no_line_break_witness :
  no_line_break (list_ascii_of_string "An example of an translate.") = true.
Proof.
  exact (compiled_text_has_no_line_break
           Exception_jsx []
           (["Translate"; "Layout"], "An example of an translate.")
           eq_refl (or_introl eq_refl)).
Defined.

(** X5: the tree of the page does not depend on how its four lines of JSX
    are indented: with any four indentations the expression compiles to the
    tree the component returns; the file is the case 6, 8, 6, 4. *)
Theorem page_tree_independent_of_indentation (a b c d : nat) :
  compile_element (Exception_jsx_indented a b c d) = Exception tt
  /\ Exception_jsx_indented 6 8 6 4 = Exception_jsx.
Proof.
  split; [|reflexivity].
  rewrite Exception_unfold. unfold Exception_jsx_indented.
  rewrite compile_element_unfold. cbn [flat_map].
  rewrite !compile_text, !clean_newline_indent.
  change (compile_child (JSXChildElement ?e)) with [compile_element e].
  rewrite compile_element_unfold. cbn [flat_map].
  rewrite compile_text, (clean_own_line b c "An example of an translate." eq_refl).
  reflexivity.
Qed.
